(** * Library Book Inventory Manager (src/week2.py): a shallow embedding

    Python objects are modelled with an explicit heap: every [Book] lives at
    a location, and the three dictionaries of [Library] hold locations, so
    that a [Book] mutated by [issue_book] is seen through every index that
    refers to it, as with Python references. *)

From Stdlib Require Import ZArith Ascii String.
From stdpp Require Import base gmap list strings.

Open Scope string_scope.
Set Warnings "-register-all".

(** ** JSON values, as [json.load] returns them (integers only) *)

Inductive json :=
| JNull
| JBool (b : bool)
| JNum (z : Z)
| JStr (s : string)
| JArr (l : list json)
| JObj (fs : list (string * json)).

(** [d[key]] / [d.get(key)] on a decoded object: [json.load] keeps the
    last value of a repeated key. *)
Definition obj_get (fs : list (string * json)) (key : string) : option json :=
  match List.find (fun kv => String.eqb (fst kv) key) (List.rev fs) with
  | Some kv => Some (snd kv)
  | None => None
  end.

(** ** Hashable dictionary keys.  Python identifies [True] with [1] and
    [False] with [0]; lists and dicts are unhashable ([TypeError]). *)

Inductive pykey :=
| KNone
| KNum (z : Z)
| KStr (s : string).

#[global] Instance pykey_eq_dec : EqDecision pykey.
Proof. solve_decision. Defined.

Definition hash_key (j : json) : option pykey :=
  match j with
  | JNull => Some KNone
  | JBool b => Some (KNum (if b then 1 else 0)%Z)
  | JNum z => Some (KNum z)
  | JStr s => Some (KStr s)
  | JArr _ | JObj _ => None
  end.

(** ** [str.lower()], on the ASCII letters *)

Definition lower_ascii (c : ascii) : ascii :=
  let n := nat_of_ascii c in
  if (65 <=? n)%nat && (n <=? 90)%nat then ascii_of_nat (n + 32) else c.

Fixpoint lower (s : string) : string :=
  match s with
  | EmptyString => EmptyString
  | String c s' => String (lower_ascii c) (lower s')
  end.

(** [x.lower()] on an arbitrary value: [AttributeError] unless a string. *)
Definition py_lower (j : json) : option string :=
  match j with
  | JStr s => Some (lower s)
  | _ => None
  end.

(** ** class Book *)

Record Book := mkBook {
  isbn : json;
  title : json;
  author : json;
  issued_to : json   (* [JNull] is Python's [None] *)
}.

(** [Book.__init__] *)
Definition new_Book (i t a : json) : Book := mkBook i t a JNull.

(** [Book.issue_to]: the new book state and the returned bool *)
Definition issue_to (b : Book) (user_id : string) : Book * bool :=
  match issued_to b with
  | JNull => (mkBook (isbn b) (title b) (author b) (JStr user_id), true)
  | _ => (b, false)
  end.

(** [Book.return_book] *)
Definition book_return (b : Book) : Book * bool :=
  match issued_to b with
  | JNull => (b, false)
  | _ => (mkBook (isbn b) (title b) (author b) JNull, true)
  end.

(** [Book.is_issued] *)
Definition is_issued (b : Book) : bool :=
  match issued_to b with JNull => false | _ => true end.

(** [Book.to_dict] *)
Definition to_dict (b : Book) : json :=
  JObj [("isbn", isbn b); ("title", title b); ("author", author b);
        ("issued_to", issued_to b)].

(** [Book.from_dict d]: [None] when it raises ([d] not a dict, or a
    missing key); [issued_to] defaults to [None]. *)
Definition from_dict (d : json) : option Book :=
  match d with
  | JObj fs =>
      match obj_get fs "isbn", obj_get fs "title", obj_get fs "author" with
      | Some i, Some t, Some a =>
          Some (mkBook i t a (default JNull (obj_get fs "issued_to")))
      | _, _, _ => None
      end
  | _ => None
  end.

(** ** Insertion-ordered dictionary [Dict[key, loc]] (for [books_by_isbn]) *)

Definition loc := nat.

Fixpoint dict_get (d : list (pykey * loc)) (k : pykey) : option loc :=
  match d with
  | [] => None
  | (k', v) :: d' => if decide (k' = k) then Some v else dict_get d' k
  end.

(** [d[k] = v]: an existing key keeps its position, a new one goes last. *)
Fixpoint dict_set (d : list (pykey * loc)) (k : pykey) (v : loc)
  : list (pykey * loc) :=
  match d with
  | [] => [(k, v)]
  | (k', v') :: d' =>
      if decide (k' = k) then (k, v) :: d' else (k', v') :: dict_set d' k v
  end.

Definition dict_values (d : list (pykey * loc)) : list loc := map snd d.

(** [d.setdefault(k, []).append(v)] on the title and author indexes *)
Definition setdefault_append (m : gmap string (list loc)) (k : string) (v : loc)
  : gmap string (list loc) :=
  <[k := app (default [] (m !! k)) [v]]> m.

(** ** class Library, with the heap of Book objects *)

Record Library := mkLibrary {
  heap : gmap loc Book;
  next_loc : loc;
  books_by_isbn : list (pykey * loc);
  books_by_title : gmap string (list loc);
  books_by_author : gmap string (list loc);
  data_file : string
}.

(** The file system: a path holds a JSON document, text that does not
    parse as JSON, or nothing. *)
Inductive fcontent :=
| FJson (j : json)
| FUnparsable.

Abbreviation fsys := (gmap string fcontent).

Definition empty_lib (p : string) : Library :=
  mkLibrary ∅ 0 [] ∅ ∅ p.

Definition set_heap (s : Library) (h : gmap loc Book) : Library :=
  mkLibrary h (next_loc s) (books_by_isbn s) (books_by_title s)
    (books_by_author s) (data_file s).

(** Allocate a new Book object. *)
Definition alloc (s : Library) (b : Book) : loc * Library :=
  (next_loc s, mkLibrary (<[next_loc s := b]> (heap s)) (S (next_loc s))
                 (books_by_isbn s) (books_by_title s) (books_by_author s)
                 (data_file s)).

Definition set_isbn (s : Library) (d : list (pykey * loc)) : Library :=
  mkLibrary (heap s) (next_loc s) d (books_by_title s) (books_by_author s)
    (data_file s).

Definition set_title (s : Library) (m : gmap string (list loc)) : Library :=
  mkLibrary (heap s) (next_loc s) (books_by_isbn s) m (books_by_author s)
    (data_file s).

Definition set_author (s : Library) (m : gmap string (list loc)) : Library :=
  mkLibrary (heap s) (next_loc s) (books_by_isbn s) (books_by_title s) m
    (data_file s).

(** [Library.add_book] *)
Definition add_book (i t a : string) (s : Library) : bool * Library :=
  match dict_get (books_by_isbn s) (KStr i) with
  | Some _ => (false, s)
  | None =>
      let '(l, s1) := alloc s (new_Book (JStr i) (JStr t) (JStr a)) in
      let s2 := set_isbn s1 (dict_set (books_by_isbn s1) (KStr i) l) in
      let s3 := set_title s2 (setdefault_append (books_by_title s2) (lower t) l) in
      let s4 := set_author s3 (setdefault_append (books_by_author s3) (lower a) l) in
      (true, s4)
  end.

(** [Library.search_by_title]: [self.books_by_title.get(title.lower(), [])] *)
Definition search_by_title (t : string) (s : Library) : list loc * Library :=
  (default [] (books_by_title s !! lower t), s).

(** [Library.search_by_author] *)
Definition search_by_author (a : string) (s : Library) : list loc * Library :=
  (default [] (books_by_author s !! lower a), s).

(** [Library.issue_book] *)
Definition issue_book (i user_id : string) (s : Library) : bool * Library :=
  match dict_get (books_by_isbn s) (KStr i) with
  | None => (false, s)
  | Some l =>
      match heap s !! l with
      | None => (false, s)   (* a dangling reference: not reachable *)
      | Some b =>
          let '(b', r) := issue_to b user_id in
          (r, set_heap s (<[l := b']> (heap s)))
      end
  end.

(** [Library.return_book] *)
Definition return_book (i : string) (s : Library) : bool * Library :=
  match dict_get (books_by_isbn s) (KStr i) with
  | None => (false, s)
  | Some l =>
      match heap s !! l with
      | None => (false, s)
      | Some b =>
          let '(b', r) := book_return b in
          (r, set_heap s (<[l := b']> (heap s)))
      end
  end.

(** [Library.total_books] *)
Definition total_books (s : Library) : nat := length (books_by_isbn s).

(** [Library.issued_count] *)
Definition issued_count (s : Library) : nat :=
  length (List.filter (fun l => match heap s !! l with
                                | Some b => is_issued b
                                | None => false
                                end) (dict_values (books_by_isbn s))).

(** ** Persistence *)

(** [for d in data]: iterating a list yields its items, a dict its keys, a
    string its characters; other values raise [TypeError]. *)
Fixpoint string_chars (s : string) : list json :=
  match s with
  | EmptyString => []
  | String c s' => JStr (String c EmptyString) :: string_chars s'
  end.

Definition py_iter (j : json) : option (list json) :=
  match j with
  | JArr l => Some l
  | JObj fs => Some (map (fun kv => JStr (fst kv)) fs)
  | JStr s => Some (string_chars s)
  | _ => None
  end.

(** Outcome of a statement sequence that may raise: the state reached, and
    whether an exception interrupted it. *)
Inductive outcome :=
| Ok (s : Library)
| Raised (s : Library).

(** One iteration of the loop body of [Library.load_data]. *)
Definition load_entry (d : json) (s : Library) : outcome :=
  match from_dict d with
  | None => Raised s
  | Some b =>
      let '(l, s1) := alloc s b in
      match hash_key (isbn b) with
      | None => Raised s1
      | Some k =>
          let s2 := set_isbn s1 (dict_set (books_by_isbn s1) k l) in
          match py_lower (title b) with
          | None => Raised s2
          | Some tk =>
              let s3 := set_title s2 (setdefault_append (books_by_title s2) tk l) in
              match py_lower (author b) with
              | None => Raised s3
              | Some ak =>
                  Ok (set_author s3 (setdefault_append (books_by_author s3) ak l))
              end
          end
      end
  end.

Fixpoint load_entries (ds : list json) (s : Library) : outcome :=
  match ds with
  | [] => Ok s
  | d :: ds' =>
      match load_entry d s with
      | Ok s' => load_entries ds' s'
      | Raised s' => Raised s'
      end
  end.

Definition outcome_state (o : outcome) : Library :=
  match o with Ok s => s | Raised s => s end.

(** [Library.load_data]: every exception is caught and printed, the state
    reached so far is kept. *)
Definition load_data (fs : fsys) (s : Library) : Library :=
  match fs !! data_file s with
  | None => s
  | Some FUnparsable => s
  | Some (FJson j) =>
      match py_iter j with
      | None => s
      | Some ds => outcome_state (load_entries ds s)
      end
  end.

(** [Library.__init__]: an empty store, then [load_data]. *)
Definition Library_init (p : string) (fs : fsys) : Library :=
  load_data fs (empty_lib p).

Definition dump_book (s : Library) (l : loc) : json :=
  match heap s !! l with Some b => to_dict b | None => JNull end.

(** [Library.save_data]: the list of [to_dict] of [books_by_isbn.values()],
    in dictionary order, written to [data_file] ([json.load] of what
    [json.dump] wrote gives the same value back). *)
Definition save_data (fs : fsys) (s : Library) : fsys :=
  <[data_file s := FJson (JArr (map (dump_book s) (dict_values (books_by_isbn s))))]> fs.

(** ** Sequences of operations on a store *)

Inductive op :=
| OpAdd (i t a : string)
| OpIssue (i u : string)
| OpReturn (i : string)
| OpRestore (fs : fsys).

Definition run_op (o : op) (s : Library) : Library :=
  match o with
  | OpAdd i t a => snd (add_book i t a s)
  | OpIssue i u => snd (issue_book i u s)
  | OpReturn i => snd (return_book i s)
  | OpRestore fs => load_data fs s
  end.

Fixpoint run (os : list op) (s : Library) : Library :=
  match os with
  | [] => s
  | o :: os' => run os' (run_op o s)
  end.

(** Records reachable from each of the three dictionaries. *)
Definition in_primary (s : Library) (l : loc) : Prop :=
  l ∈ dict_values (books_by_isbn s).

Definition in_index (m : gmap string (list loc)) (l : loc) : Prop :=
  exists k ls, m !! k = Some ls /\ l ∈ ls.

(** The invariant of the spec: indexes only refer to primary records, and
    the three structures reach the same records. *)
Definition views_consistent (s : Library) : Prop :=
  (forall l, in_index (books_by_title s) l -> in_primary s l) /\
  (forall l, in_index (books_by_author s) l -> in_primary s l) /\
  (forall l, in_primary s l <-> in_index (books_by_title s) l) /\
  (forall l, in_primary s l <-> in_index (books_by_author s) l).

(** Adding a sequence of books, as the menu's option 1 does repeatedly. *)
Fixpoint add_all (bs : list (string * string * string)) (s : Library)
  : list bool * Library :=
  match bs with
  | [] => ([], s)
  | (i, t, a) :: bs' =>
      let '(r, s1) := add_book i t a s in
      let '(rs, s2) := add_all bs' s1 in
      (r :: rs, s2)
  end.

Definition book_id (b : string * string * string) : string := fst (fst b).

(** ** Examples on concrete stores *)

Definition lib_two : Library :=
  snd (issue_book "111" "alice"
    (snd (add_book "222" "1984" "Orwell"
      (snd (add_book "111" "Dune" "Herbert" (empty_lib "library_data.json")))))).

Example lib_two_counts :
  issued_count lib_two = 1 /\ total_books lib_two - issued_count lib_two = 1.
Proof. vm_compute. auto. Qed.

Example lib_two_search :
  fst (search_by_author "orwell" lib_two) = [1] /\
  fmap isbn (heap lib_two !! 1) = Some (JStr "222").
Proof. vm_compute. auto. Qed.

Example lower_dune : lower "DUNE" = "dune" /\ lower "Dune" = "dune".
Proof. split; reflexivity. Qed.

(** ** Consistency of the indexes with the primary mapping *)

(** Whether a Book has [k] as the lowercased value of field [f], the key
    under which [add_book] and [load_data] index it. *)
Definition key_has (f : Book -> json) (k : string) (ob : option Book) : bool :=
  match ob with
  | Some b => bool_decide (py_lower (f b) = Some k)
  | None => false
  end.

(** Each index list is exactly the primary records with that key, in
    primary order; each primary entry is a Book whose isbn hashes to its
    key and whose title and author are strings. *)
Record lib_inv (s : Library) : Prop := {
  inv_fresh : forall l, l ∈ dict_values (books_by_isbn s) -> l < next_loc s;
  inv_books : forall k l, (k, l) ∈ books_by_isbn s ->
    exists b t a, heap s !! l = Some b /\ hash_key (isbn b) = Some k /\
                  title b = JStr t /\ author b = JStr a;
  inv_keys : NoDup (map fst (books_by_isbn s));
  inv_title : forall k, default [] (books_by_title s !! k) =
    List.filter (fun l => key_has title k (heap s !! l)) (dict_values (books_by_isbn s));
  inv_author : forall k, default [] (books_by_author s !! k) =
    List.filter (fun l => key_has author k (heap s !! l)) (dict_values (books_by_isbn s))
}.

(** The key under which [load_data] files an entry, when the entry loads
    without raising. *)
Definition entry_key (d : json) : option pykey :=
  match from_dict d with
  | Some b =>
      match title b, author b with
      | JStr _, JStr _ => hash_key (isbn b)
      | _, _ => None
      end
  | None => None
  end.

(** A file entry list that loads completely, with ids pairwise distinct and
    not yet in the store. *)
Definition entries_ok (ds : list json) (s : Library) : Prop :=
  Forall (fun d => entry_key d <> None) ds /\
  NoDup (omap entry_key ds) /\
  Forall (fun k => k ∉ map fst (books_by_isbn s)) (omap entry_key ds).

Definition restore_ok (fs : fsys) (s : Library) : Prop :=
  match fs !! data_file s with
  | Some (FJson (JArr ds)) => entries_ok ds s
  | _ => True
  end.

Definition op_ok (o : op) (s : Library) : Prop :=
  match o with
  | OpRestore fs => restore_ok fs s
  | _ => True
  end.

Fixpoint ops_ok (os : list op) (s : Library) : Prop :=
  match os with
  | [] => True
  | o :: os' => op_ok o s /\ ops_ok os' (run_op o s)
  end.

(** The Book objects a list of references points to. *)
Definition contents (s : Library) (ls : list loc) : list (option Book) :=
  map (fun l => heap s !! l) ls.

(** ** The menu loop [main] *)

(** [str.isspace()] on ASCII: tab to carriage return, the separators
    0x1c to 0x1f, and space. *)
Definition is_space (c : ascii) : bool :=
  let n := nat_of_ascii c in
  ((9 <=? n)%nat && (n <=? 13)%nat) || ((28 <=? n)%nat && (n <=? 32)%nat).

Fixpoint drop_spaces (l : list ascii) : list ascii :=
  match l with
  | [] => []
  | c :: l' => if is_space c then drop_spaces l' else l
  end.

(** [str.strip()] *)
Definition strip (x : string) : string :=
  string_of_list_ascii
    (List.rev (drop_spaces (List.rev (drop_spaces (list_ascii_of_string x))))).

(** How a run of [main] ends: option 7 saved and left the loop, or
    [input()] met the end of input and raised [EOFError] (uncaught: the
    program stops without saving).  [NoFuel] is not a behaviour of the
    program, only of the bounded unfolding of [while True]. *)
Inductive main_end :=
| Exited (s : Library) (fs : fsys)
| EOFCrash (s : Library) (fs : fsys)
| NoFuel.

(** One pass of the [while True] body per unit of fuel; each [input()]
    takes the next line of [inp]. *)
Fixpoint main_loop (fuel : nat) (inp : list string) (s : Library) (fs : fsys)
  : main_end :=
  match fuel with
  | O => NoFuel
  | S f =>
      match inp with
      | [] => EOFCrash s fs
      | c :: inp1 =>
          let choice := strip c in
          if String.eqb choice "1" then
            match inp1 with
            | i :: t :: a :: inp2 =>
                main_loop f inp2 (snd (add_book (strip i) (strip t) (strip a) s)) fs
            | _ => EOFCrash s fs
            end
          else if String.eqb choice "2" then
            match inp1 with
            | t :: inp2 => main_loop f inp2 (snd (search_by_title (strip t) s)) fs
            | [] => EOFCrash s fs
            end
          else if String.eqb choice "3" then
            match inp1 with
            | a :: inp2 => main_loop f inp2 (snd (search_by_author (strip a) s)) fs
            | [] => EOFCrash s fs
            end
          else if String.eqb choice "4" then
            match inp1 with
            | i :: u :: inp2 =>
                main_loop f inp2 (snd (issue_book (strip i) (strip u) s)) fs
            | _ => EOFCrash s fs
            end
          else if String.eqb choice "5" then
            match inp1 with
            | i :: inp2 => main_loop f inp2 (snd (return_book (strip i) s)) fs
            | [] => EOFCrash s fs
            end
          else if String.eqb choice "6" then
            main_loop f inp1 s fs   (* report: prints only *)
          else if String.eqb choice "7" then
            Exited s (save_data fs s)
          else main_loop f inp1 s fs   (* invalid choice: prints only *)
      end
  end.

(** [main]: [Library()] on "library_data.json", then the loop.  Every pass
    reads at least one line, so [length inp + 1] passes always suffice. *)
Definition main (inp : list string) (fs : fsys) : main_end :=
  main_loop (S (length inp)) inp (Library_init "library_data.json" fs) fs.

(** Data files used in the examples. *)

Definition entry (i t a : json) : json :=
  JObj [("isbn", i); ("title", t); ("author", a); ("issued_to", JNull)].

(** A file whose entry has a number as title: [5.lower()] raises after the
    Book has been put in [books_by_isbn]. *)
Definition bad_title_file : fsys :=
  {[ "library_data.json" := FJson (JArr [entry (JStr "1") (JNum 5) (JStr "x")]) ]}.

(** A file with the same isbn twice. *)
Definition dup_file : fsys :=
  {[ "library_data.json" :=
       FJson (JArr [entry (JStr "1") (JStr "Dune") (JStr "Herbert");
                    entry (JStr "1") (JStr "Emma") (JStr "Austen")]) ]}.

(** A file as [save_data] writes it. *)
Definition good_file : fsys :=
  {[ "library_data.json" :=
       FJson (JArr [entry (JStr "111") (JStr "Dune") (JStr "Herbert");
                    JObj [("isbn", JStr "222"); ("title", JStr "1984");
                          ("author", JStr "Orwell"); ("issued_to", JStr "bob")]]) ]}.

Definition sample_ops : list op :=
  [OpRestore good_file; OpAdd "333" "Emma" "Austen"; OpIssue "333" "alice";
   OpReturn "222"; OpAdd "111" "Other" "Someone"].

(** A file whose second entry has no "author". *)
Definition partly_bad_file : fsys :=
  {[ "library_data.json" :=
       FJson (JArr [entry (JStr "1") (JStr "Dune") (JStr "Herbert");
                    JObj [("isbn", JStr "2"); ("title", JStr "Emma")];
                    entry (JStr "3") (JStr "1984") (JStr "Orwell")]) ]}.

(** A menu session: add a book, issue it (the choice is stripped), search,
    an invalid choice, then save and exit. *)
Definition sample_session : list string :=
  ["1"; "333"; "Emma"; "Austen"; " 4 "; "333"; "alice"; "2"; "dune"; "9"; "7"].

(** * Theorems *)

(** ** C3: adding an existing id *)

(** C3: when [isbn] is already a key of [books_by_isbn], [add_book] returns
    [False] and the whole store (heap and the three dictionaries) is
    unchanged. *)
Theorem add_book_duplicate (s : Library) (i t a : string) (l : loc)
  (Hin : dict_get (books_by_isbn s) (KStr i) = Some l) :
  add_book i t a s = (false, s).
Proof. unfold add_book. rewrite Hin. reflexivity. Qed.

Lemma add_book_duplicate_witness :
  dict_get (books_by_isbn lib_two) (KStr "111") = Some 0 /\
  add_book "111" "Other" "Someone" lib_two = (false, lib_two).
Proof.
  split; [vm_compute; reflexivity|].
  apply (add_book_duplicate lib_two "111" "Other" "Someone" 0).
  vm_compute. reflexivity.
Defined.

(** ** C5: checkout, then a second checkout *)

(** C5: on a present record that is not issued, [issue_book i "alice"]
    returns [True] and makes it issued to "alice"; a following
    [issue_book i "bob"] returns [False] and changes nothing, so the holder
    stays "alice". *)
Theorem issue_then_issue_again (s : Library) (i : string) (l : loc) (b : Book)
  (Hin : dict_get (books_by_isbn s) (KStr i) = Some l)
  (Hb : heap s !! l = Some b) (Hfree : is_issued b = false) :
  let '(r1, s1) := issue_book i "alice" s in
  r1 = true /\
  (exists b1, heap s1 !! l = Some b1 /\ is_issued b1 = true /\
              issued_to b1 = JStr "alice") /\
  let '(r2, s2) := issue_book i "bob" s1 in
  r2 = false /\ s2 = s1 /\
  (exists b2, heap s2 !! l = Some b2 /\ issued_to b2 = JStr "alice").
Proof.
  destruct b as [bi bt ba bu]. unfold is_issued in Hfree; simpl in Hfree.
  destruct bu; try discriminate.
  unfold issue_book. rewrite Hin, Hb. simpl.
  split; [reflexivity|].
  split.
  - eexists. rewrite lookup_insert_eq. eauto.
  - rewrite Hin. simpl. rewrite lookup_insert_eq. simpl.
    split; [reflexivity|]. split.
    + unfold set_heap. simpl. rewrite insert_insert_eq. reflexivity.
    + eexists. simpl. rewrite lookup_insert_eq. eauto.
Qed.

Lemma issue_then_issue_again_witness :
  let s := snd (add_book "111" "Dune" "Herbert" (empty_lib "library_data.json")) in
  let '(r1, s1) := issue_book "111" "alice" s in
  r1 = true /\
  (exists b1, heap s1 !! 0 = Some b1 /\ is_issued b1 = true /\
              issued_to b1 = JStr "alice") /\
  let '(r2, s2) := issue_book "111" "bob" s1 in
  r2 = false /\ s2 = s1 /\
  (exists b2, heap s2 !! 0 = Some b2 /\ issued_to b2 = JStr "alice").
Proof.
  apply (issue_then_issue_again _ "111" 0
           (new_Book (JStr "111") (JStr "Dune") (JStr "Herbert")));
    vm_compute; reflexivity.
Defined.

(** ** C9: the empty holder id *)

(** C9: [issue_book i ""] on a present record that is not issued returns
    [True] and records [""] as the holder, which then counts as issued. *)
Theorem issue_empty_holder (s : Library) (i : string) (l : loc) (b : Book)
  (Hin : dict_get (books_by_isbn s) (KStr i) = Some l)
  (Hb : heap s !! l = Some b) (Hfree : is_issued b = false) :
  fst (issue_book i "" s) = true /\
  exists b1, heap (snd (issue_book i "" s)) !! l = Some b1 /\
             issued_to b1 = JStr "" /\ is_issued b1 = true.
Proof.
  destruct b as [bi bt ba bu]. unfold is_issued in Hfree; simpl in Hfree.
  destruct bu; try discriminate.
  unfold issue_book. rewrite Hin, Hb. simpl.
  split; [reflexivity|]. eexists. rewrite lookup_insert_eq. eauto.
Qed.

Lemma issue_empty_holder_witness :
  let s := snd (add_book "111" "Dune" "Herbert" (empty_lib "library_data.json")) in
  fst (issue_book "111" "" s) = true /\
  exists b1, heap (snd (issue_book "111" "" s)) !! 0 = Some b1 /\
             issued_to b1 = JStr "" /\ is_issued b1 = true.
Proof.
  apply (issue_empty_holder _ "111" 0
           (new_Book (JStr "111") (JStr "Dune") (JStr "Herbert")));
    vm_compute; reflexivity.
Defined.

(** ** C6: return, then a second return *)

(** C6: on a present record that is issued, [return_book i] returns [True]
    and clears the holder; a second [return_book i] returns [False], changes
    nothing, and the record stays not issued. *)
Theorem return_then_return_again (s : Library) (i : string) (l : loc) (b : Book)
  (Hin : dict_get (books_by_isbn s) (KStr i) = Some l)
  (Hb : heap s !! l = Some b) (Hheld : is_issued b = true) :
  let '(r1, s1) := return_book i s in
  r1 = true /\
  (exists b1, heap s1 !! l = Some b1 /\ is_issued b1 = false /\
              issued_to b1 = JNull) /\
  let '(r2, s2) := return_book i s1 in
  r2 = false /\ s2 = s1 /\
  (exists b2, heap s2 !! l = Some b2 /\ is_issued b2 = false).
Proof.
  destruct b as [bi bt ba bu]. unfold is_issued in Hheld; simpl in Hheld.
  unfold return_book. rewrite Hin, Hb.
  destruct bu; try discriminate; simpl;
    (split; [reflexivity|]);
    (split; [eexists; rewrite lookup_insert_eq; eauto|]);
    rewrite Hin; simpl; rewrite lookup_insert_eq; simpl;
    (split; [reflexivity|]);
    (split; [unfold set_heap; simpl; rewrite insert_insert_eq; reflexivity|]);
    eexists; simpl; rewrite lookup_insert_eq; eauto.
Qed.

Lemma return_then_return_again_witness :
  let s := lib_two in
  let '(r1, s1) := return_book "111" s in
  r1 = true /\
  (exists b1, heap s1 !! 0 = Some b1 /\ is_issued b1 = false /\
              issued_to b1 = JNull) /\
  let '(r2, s2) := return_book "111" s1 in
  r2 = false /\ s2 = s1 /\
  (exists b2, heap s2 !! 0 = Some b2 /\ is_issued b2 = false).
Proof.
  apply (return_then_return_again _ "111" 0
           (mkBook (JStr "111") (JStr "Dune") (JStr "Herbert") (JStr "alice")));
    vm_compute; reflexivity.
Defined.

(** ** C7: case-insensitive title search *)

(** C7: when [search_by_title "dune"] is empty, a successful
    [add_book i "Dune" "Frank Herbert"] makes both [search_by_title "dune"]
    and [search_by_title "DUNE"] return exactly the new Book. *)
Theorem add_dune_search (s : Library) (i : string)
  (Hnone : fst (search_by_title "dune" s) = [])
  (Hadd : fst (add_book i "Dune" "Frank Herbert" s) = true) :
  let s' := snd (add_book i "Dune" "Frank Herbert" s) in
  exists l,
    dict_get (books_by_isbn s') (KStr i) = Some l /\
    heap s' !! l = Some (new_Book (JStr i) (JStr "Dune") (JStr "Frank Herbert")) /\
    fst (search_by_title "dune" s') = [l] /\
    fst (search_by_title "DUNE" s') = [l].
Proof.
  assert (E1 : lower "dune" = "dune") by reflexivity.
  assert (E2 : lower "DUNE" = "dune") by reflexivity.
  assert (E3 : lower "Dune" = "dune") by reflexivity.
  unfold add_book, search_by_title in *. rewrite E1 in Hnone. simpl in Hnone.
  rewrite E2, E1, E3.
  destruct (dict_get (books_by_isbn s) (KStr i)) eqn:Hg; [discriminate|].
  cbn [fst snd alloc set_isbn set_title set_author books_by_isbn books_by_title
       heap next_loc].
  exists (next_loc s). split; [|split].
  - clear -Hg. induction (books_by_isbn s) as [|[k v] d IH]; simpl in *.
    + rewrite decide_True; auto.
    + destruct (decide (k = KStr i)); [discriminate|].
      simpl. rewrite decide_False; auto.
  - apply lookup_insert_eq.
  - unfold setdefault_append. rewrite lookup_insert_eq.
    rewrite Hnone. split; reflexivity.
Qed.

Lemma add_dune_search_witness :
  let s := snd (add_book "222" "1984" "Orwell" (empty_lib "library_data.json")) in
  let s' := snd (add_book "111" "Dune" "Frank Herbert" s) in
  exists l,
    dict_get (books_by_isbn s') (KStr "111") = Some l /\
    heap s' !! l = Some (new_Book (JStr "111") (JStr "Dune") (JStr "Frank Herbert")) /\
    fst (search_by_title "dune" s') = [l] /\
    fst (search_by_title "DUNE" s') = [l].
Proof. apply add_dune_search; vm_compute; reflexivity. Defined.

(** ** C8: restoring from a missing file *)

(** C8: when no file exists at [p], constructing [Library p] (an empty store
    then [load_data]) gives the empty store: [total_books] is 0.
    [load_data] is total here: it returns without raising. *)
Theorem init_missing_file (p : string) (fs : fsys) (Hno : fs !! p = None) :
  Library_init p fs = empty_lib p /\ total_books (Library_init p fs) = 0.
Proof.
  unfold Library_init, load_data. simpl. rewrite Hno. auto.
Qed.

Lemma init_missing_file_witness :
  Library_init "library_data.json" ∅ = empty_lib "library_data.json" /\
  total_books (Library_init "library_data.json" ∅) = 0.
Proof. apply init_missing_file. reflexivity. Defined.

(** ** C10: searches do not change the store *)

(** C10: [search_by_title] and [search_by_author] use [dict.get] (not
    [setdefault]): the store, including the dictionaries at a key without an
    entry, is the same after the call. *)
Theorem search_frame (s : Library) (q : string) :
  snd (search_by_title q s) = s /\ snd (search_by_author q s) = s /\
  books_by_title (snd (search_by_title q s)) !! lower q = books_by_title s !! lower q /\
  books_by_author (snd (search_by_author q s)) !! lower q = books_by_author s !! lower q.
Proof. repeat split. Qed.

(** ** Dictionary lemmas *)

Lemma dict_get_set (d : list (pykey * loc)) (k k' : pykey) (v : loc) :
  dict_get (dict_set d k v) k' = if decide (k = k') then Some v else dict_get d k'.
Proof.
  induction d as [|[k0 v0] d IH]; simpl.
  - destruct (decide (k = k')); reflexivity.
  - destruct (decide (k0 = k)) as [->|Hne]; simpl.
    + destruct (decide (k = k')); reflexivity.
    + rewrite IH. destruct (decide (k0 = k')) as [->|]; [|reflexivity].
      rewrite decide_False; auto.
Qed.

Lemma dict_get_None (d : list (pykey * loc)) (k : pykey) :
  dict_get d k = None <-> k ∉ map fst d.
Proof.
  induction d as [|[k0 v0] d IH]; simpl.
  - split; [intros _; apply not_elem_of_nil|reflexivity].
  - rewrite not_elem_of_cons. destruct (decide (k0 = k)) as [->|Hne].
    + split; [discriminate|]. intros [[] _]. reflexivity.
    + rewrite IH. split; [intros H; split; auto|intros [_ H]; exact H].
Qed.

Lemma dict_set_new (d : list (pykey * loc)) (k : pykey) (v : loc) :
  dict_get d k = None -> dict_set d k v = (d ++ [(k, v)])%list.
Proof.
  induction d as [|[k0 v0] d IH]; simpl; [reflexivity|].
  destruct (decide (k0 = k)); [discriminate|]. intros H. rewrite IH; auto.
Qed.

Lemma add_book_new (i t a : string) (s : Library) :
  dict_get (books_by_isbn s) (KStr i) = None ->
  add_book i t a s =
    (true, mkLibrary (<[next_loc s := new_Book (JStr i) (JStr t) (JStr a)]> (heap s))
             (S (next_loc s))
             (dict_set (books_by_isbn s) (KStr i) (next_loc s))
             (setdefault_append (books_by_title s) (lower t) (next_loc s))
             (setdefault_append (books_by_author s) (lower a) (next_loc s))
             (data_file s)).
Proof. intros Hg. unfold add_book. rewrite Hg. reflexivity. Qed.

(** ** C4: adding books with distinct ids *)

Lemma add_all_distinct (bs : list (string * string * string)) (s : Library) :
  NoDup (map book_id bs) ->
  (forall b, b ∈ bs -> dict_get (books_by_isbn s) (KStr (book_id b)) = None) ->
  fst (add_all bs s) = repeat true (length bs) /\
  total_books (snd (add_all bs s)) = total_books s + length bs.
Proof.
  revert s. induction bs as [|[[i t] a] bs IH]; intros s Hnd Hfresh; simpl.
  - split; [reflexivity|]. lia.
  - inversion Hnd as [|? ? Hnotin Hnd']; subst.
    assert (Hg : dict_get (books_by_isbn s) (KStr i) = None).
    { apply (Hfresh (i, t, a)). apply elem_of_cons; left; reflexivity. }
    rewrite (add_book_new i t a s Hg).
    set (s4 := mkLibrary _ _ _ _ _ _).
    destruct (IH s4 Hnd') as [Hr Ht].
    { intros b Hb. unfold s4. simpl. rewrite dict_get_set.
      rewrite decide_False.
      - apply Hfresh. apply elem_of_cons; right; exact Hb.
      - intros Heq. injection Heq as Heq. apply Hnotin.
        change (i ∈ map book_id bs). rewrite Heq.
        apply (list_elem_of_fmap_2 book_id). exact Hb. }
    destruct (add_all bs s4) as [rs s5]. simpl in *.
    split; [rewrite Hr; reflexivity|].
    rewrite Ht. unfold total_books, s4. simpl.
    rewrite dict_set_new by exact Hg. rewrite length_app. simpl. lia.
Qed.

(** C4: from an empty store, adding books whose ids are pairwise distinct:
    every [add_book] returns [True] and [total_books] is the number of
    calls. *)
Theorem add_all_distinct_from_empty (p : string)
  (bs : list (string * string * string)) (Hnd : NoDup (map book_id bs)) :
  fst (add_all bs (empty_lib p)) = repeat true (length bs) /\
  total_books (snd (add_all bs (empty_lib p))) = length bs.
Proof.
  destruct (add_all_distinct bs (empty_lib p) Hnd) as [Hr Ht].
  - intros b _. reflexivity.
  - split; [exact Hr|]. rewrite Ht. reflexivity.
Qed.

Lemma add_all_distinct_from_empty_witness :
  NoDup (map book_id [("111", "Dune", "Herbert"); ("222", "1984", "Orwell");
                      ("333", "Dune", "Herbert")]) /\
  fst (add_all [("111", "Dune", "Herbert"); ("222", "1984", "Orwell");
                ("333", "Dune", "Herbert")] (empty_lib "library_data.json"))
    = repeat true 3 /\
  total_books (snd (add_all [("111", "Dune", "Herbert"); ("222", "1984", "Orwell");
                             ("333", "Dune", "Herbert")]
                      (empty_lib "library_data.json"))) = 3.
Proof.
  assert (H : NoDup (map book_id [("111", "Dune", "Herbert");
                                  ("222", "1984", "Orwell");
                                  ("333", "Dune", "Herbert")])).
  { simpl. repeat constructor; simpl; set_solver. }
  split; [exact H|]. apply (add_all_distinct_from_empty _ _ H).
Defined.

(** ** The index invariant *)

Lemma setdefault_append_lookup (m : gmap string (list loc)) (k k0 : string) (v : loc) :
  default [] (setdefault_append m k v !! k0) =
  if decide (k = k0) then (default [] (m !! k0) ++ [v])%list else default [] (m !! k0).
Proof.
  unfold setdefault_append. destruct (decide (k = k0)) as [->|Hne].
  - rewrite lookup_insert_eq. reflexivity.
  - rewrite lookup_insert_ne by exact Hne. reflexivity.
Qed.

Lemma filter_contents (g : option Book -> bool) (h : gmap loc Book) (vs : list loc) :
  map (fun l => h !! l) (List.filter (fun l => g (h !! l)) vs) =
  List.filter g (map (fun l => h !! l) vs).
Proof.
  induction vs as [|l vs IH]; simpl; [reflexivity|].
  destruct (g (h !! l)); simpl; rewrite IH; reflexivity.
Qed.

(** Allocating a fresh Book does not change what older references see. *)
Lemma fresh_lookup (h : gmap loc Book) (vs : list loc) (n : loc) (b : Book) :
  (forall l, l ∈ vs -> l < n) ->
  forall l, In l vs -> <[n := b]> h !! l = h !! l.
Proof.
  intros Hf l Hl. apply lookup_insert_ne.
  assert (l < n) by (apply Hf; apply list_elem_of_In; exact Hl). lia.
Qed.

(** One index after [d.setdefault(key, []).append(n)] for a fresh Book. *)
Lemma index_insert (f : Book -> json) (m : gmap string (list loc))
  (h : gmap loc Book) (vs : list loc) (n : loc) (b : Book) (x : string) :
  (forall k, default [] (m !! k) = List.filter (fun l => key_has f k (h !! l)) vs) ->
  (forall l, l ∈ vs -> l < n) -> f b = JStr x ->
  forall k, default [] (setdefault_append m (lower x) n !! k) =
    List.filter (fun l => key_has f k (<[n := b]> h !! l)) (vs ++ [n])%list.
Proof.
  intros Hm Hf Hx k. rewrite setdefault_append_lookup, List.filter_app.
  rewrite (filter_ext_in _ (fun l => key_has f k (h !! l))).
  2:{ intros l Hl. rewrite (fresh_lookup h vs n b Hf l Hl). reflexivity. }
  rewrite <- Hm. simpl. rewrite lookup_insert_eq. simpl. rewrite Hx. simpl.
  destruct (decide (lower x = k)) as [->|Hne].
  - rewrite bool_decide_true by reflexivity. reflexivity.
  - rewrite bool_decide_false by congruence. rewrite app_nil_r. reflexivity.
Qed.

(** Filing a fresh Book under a new key, as both [add_book] and one
    successful iteration of [load_data] do, keeps the invariant and appends
    the Book to the records of the primary mapping. *)
Lemma lib_inv_insert (s : Library) (b : Book) (k : pykey) (t a : string) :
  lib_inv s -> k ∉ map fst (books_by_isbn s) -> hash_key (isbn b) = Some k ->
  title b = JStr t -> author b = JStr a ->
  let s' := mkLibrary (<[next_loc s := b]> (heap s)) (S (next_loc s))
              (dict_set (books_by_isbn s) k (next_loc s))
              (setdefault_append (books_by_title s) (lower t) (next_loc s))
              (setdefault_append (books_by_author s) (lower a) (next_loc s))
              (data_file s) in
  lib_inv s' /\
  contents s' (dict_values (books_by_isbn s')) =
    (contents s (dict_values (books_by_isbn s)) ++ [Some b])%list.
Proof.
  intros Hinv Hk Hh Ht Ha s'.
  assert (Hset : dict_set (books_by_isbn s) k (next_loc s) =
                 (books_by_isbn s ++ [(k, next_loc s)])%list).
  { apply dict_set_new. apply dict_get_None. exact Hk. }
  assert (Hvals : dict_values (books_by_isbn s') =
                  (dict_values (books_by_isbn s) ++ [next_loc s])%list).
  { simpl. rewrite Hset. unfold dict_values. rewrite map_app. reflexivity. }
  assert (Hold : forall l, In l (dict_values (books_by_isbn s)) ->
                 <[next_loc s := b]> (heap s) !! l = heap s !! l).
  { apply fresh_lookup. apply inv_fresh. exact Hinv. }
  split.
  - constructor.
    + rewrite Hvals. intros l Hl. simpl.
      apply elem_of_app in Hl as [Hl|Hl].
      * pose proof (inv_fresh s Hinv l Hl). lia.
      * apply list_elem_of_singleton in Hl. lia.
    + simpl. rewrite Hset. intros k0 l Hin.
      apply elem_of_app in Hin as [Hin|Hin].
      * destruct (inv_books s Hinv k0 l Hin) as (b0 & t0 & a0 & Hb0 & Hrest).
        exists b0, t0, a0. rewrite Hold; [split; assumption|].
        apply list_elem_of_In. apply (list_elem_of_fmap_2' snd _ (k0, l)); auto.
      * apply list_elem_of_singleton in Hin. injection Hin as -> ->.
        exists b, t, a. rewrite lookup_insert_eq. auto.
    + simpl. rewrite Hset, map_app. simpl. apply NoDup_app. split; [apply inv_keys; exact Hinv|].
      split; [|constructor; [apply not_elem_of_nil|constructor]].
      intros x Hx Hx'. apply list_elem_of_singleton in Hx'. subst. contradiction.
    + rewrite Hvals. simpl.
      apply (index_insert title _ (heap s) _ _ b t); auto.
      * apply inv_title. exact Hinv.
      * apply inv_fresh. exact Hinv.
    + rewrite Hvals. simpl.
      apply (index_insert author _ (heap s) _ _ b a); auto.
      * apply inv_author. exact Hinv.
      * apply inv_fresh. exact Hinv.
  - rewrite Hvals. unfold contents. rewrite map_app. simpl.
    rewrite lookup_insert_eq. f_equal. apply map_ext_in. exact Hold.
Qed.

Lemma lib_inv_empty (p : string) : lib_inv (empty_lib p).
Proof.
  constructor; simpl.
  - intros l Hl. apply not_elem_of_nil in Hl. contradiction.
  - intros k l Hl. apply not_elem_of_nil in Hl. contradiction.
  - constructor.
  - intros k. reflexivity.
  - intros k. reflexivity.
Qed.

Lemma lib_inv_add (i t a : string) (s : Library) :
  lib_inv s -> lib_inv (snd (add_book i t a s)).
Proof.
  intros Hinv. destruct (dict_get (books_by_isbn s) (KStr i)) eqn:Hg.
  - unfold add_book. rewrite Hg. exact Hinv.
  - rewrite (add_book_new i t a s Hg). simpl.
    apply (lib_inv_insert s (new_Book (JStr i) (JStr t) (JStr a)) (KStr i) t a);
      auto. apply dict_get_None. exact Hg.
Qed.

(** Replacing a Book by one with the same isbn, title and author (as
    [issue_to] and [return_book] do) keeps the invariant. *)
Lemma lib_inv_update (s : Library) (l : loc) (b b' : Book) :
  lib_inv s -> heap s !! l = Some b ->
  isbn b' = isbn b -> title b' = title b -> author b' = author b ->
  lib_inv (set_heap s (<[l := b']> (heap s))).
Proof.
  intros Hinv Hb Hi Ht Ha.
  assert (Hkey : forall (f : Book -> json) k l0, f b' = f b ->
            key_has f k (<[l := b']> (heap s) !! l0) = key_has f k (heap s !! l0)).
  { intros f k l0 Hf. destruct (decide (l0 = l)) as [->|Hne].
    - rewrite lookup_insert_eq, Hb. simpl. rewrite Hf. reflexivity.
    - rewrite lookup_insert_ne by congruence. reflexivity. }
  constructor; simpl.
  - apply inv_fresh. exact Hinv.
  - intros k l0 Hin. destruct (inv_books s Hinv k l0 Hin) as (b0 & t0 & a0 & Hb0 & Hh & Ht0 & Ha0).
    destruct (decide (l0 = l)) as [->|Hne].
    + rewrite Hb in Hb0. injection Hb0 as <-.
      exists b', t0, a0. rewrite lookup_insert_eq. rewrite Hi, Ht, Ha. auto.
    + exists b0, t0, a0. rewrite lookup_insert_ne by congruence. auto.
  - apply inv_keys. exact Hinv.
  - intros k. rewrite (inv_title s Hinv k). apply filter_ext_in.
    intros l0 _. symmetry. apply Hkey. exact Ht.
  - intros k. rewrite (inv_author s Hinv k). apply filter_ext_in.
    intros l0 _. symmetry. apply Hkey. exact Ha.
Qed.

Lemma lib_inv_issue (i u : string) (s : Library) :
  lib_inv s -> lib_inv (snd (issue_book i u s)).
Proof.
  intros Hinv. unfold issue_book.
  destruct (dict_get (books_by_isbn s) (KStr i)) as [l|]; [|exact Hinv].
  destruct (heap s !! l) as [b|] eqn:Hb; [|exact Hinv].
  destruct b as [bi bt ba bu]. unfold issue_to. simpl.
  destruct bu; simpl; eapply lib_inv_update; eauto.
Qed.

Lemma lib_inv_return (i : string) (s : Library) :
  lib_inv s -> lib_inv (snd (return_book i s)).
Proof.
  intros Hinv. unfold return_book.
  destruct (dict_get (books_by_isbn s) (KStr i)) as [l|]; [|exact Hinv].
  destruct (heap s !! l) as [b|] eqn:Hb; [|exact Hinv].
  destruct b as [bi bt ba bu]. unfold book_return. simpl.
  destruct bu; simpl; eapply lib_inv_update; eauto.
Qed.

(** A list of entries that all load, with fresh pairwise distinct ids. *)
Lemma load_entries_ok (ds : list json) (s : Library) :
  lib_inv s -> entries_ok ds s ->
  exists s', load_entries ds s = Ok s' /\ lib_inv s' /\
    contents s' (dict_values (books_by_isbn s')) =
      (contents s (dict_values (books_by_isbn s)) ++ map from_dict ds)%list /\
    data_file s' = data_file s.
Proof.
  revert s. induction ds as [|d ds IH]; intros s Hinv (Hall & Hnd & Hfr); simpl.
  - exists s. rewrite app_nil_r. auto.
  - inversion Hall as [|? ? Hd Hall']; subst.
    destruct (entry_key d) as [k|] eqn:Hek; [|contradiction].
    unfold entry_key in Hek.
    destruct (from_dict d) as [b|] eqn:Hfd; [|discriminate].
    destruct (title b) as [| | |t| |] eqn:Ht; try discriminate.
    destruct (author b) as [| | |a| |] eqn:Ha; try discriminate.
    simpl in Hnd, Hfr. unfold entry_key in Hnd, Hfr.
    rewrite Hfd, Ht, Ha, Hek in Hnd, Hfr.
    inversion Hnd as [|? ? Hknot Hnd']; subst.
    inversion Hfr as [|? ? Hkfresh Hfr']; subst.
    unfold load_entry. rewrite Hfd. simpl. rewrite Hek. simpl.
    rewrite Ht, Ha. simpl.
    destruct (lib_inv_insert s b k t a Hinv Hkfresh Hek Ht Ha) as [Hinv1 Hc1].
    edestruct (IH _ Hinv1) as (s2 & Hl2 & Hinv2 & Hc2 & Hf2).
    + split; [exact Hall'|]. split; [exact Hnd'|].
      apply Forall_forall. intros k' Hk'.
      assert (Hk'old := proj1 (Forall_forall _ _) Hfr' k' Hk').
      simpl. rewrite dict_set_new by (apply dict_get_None; exact Hkfresh).
      rewrite map_app. simpl. rewrite elem_of_app, list_elem_of_singleton.
      intros [H|H]; [contradiction|]. subst. contradiction.
    + exists s2. split; [exact Hl2|]. split; [exact Hinv2|].
      split; [|exact Hf2].
      rewrite Hc2, Hc1. rewrite <- app_assoc. reflexivity.
Qed.

(** Entries that are not dicts make the first iteration raise before any
    change: iterating a dict's keys or a string's characters. *)
Lemma load_entries_strings (ds : list json) (s : Library) :
  Forall (fun d => exists x, d = JStr x) ds ->
  outcome_state (load_entries ds s) = s.
Proof.
  intros Hall. destruct ds as [|d ds]; [reflexivity|].
  inversion Hall as [|? ? [x ->] _]; subst. reflexivity.
Qed.

Lemma string_chars_strings (x : string) :
  Forall (fun d => exists y, d = JStr y) (string_chars x).
Proof.
  induction x as [|c x IH]; simpl; constructor; eauto.
Qed.

Lemma lib_inv_load (fs : fsys) (s : Library) :
  lib_inv s -> restore_ok fs s -> lib_inv (load_data fs s).
Proof.
  intros Hinv Hok. unfold restore_ok in Hok. unfold load_data.
  destruct (fs !! data_file s) as [[j|]|]; try exact Hinv.
  destruct j as [| | |x|ds|fs']; simpl; try exact Hinv.
  - rewrite load_entries_strings by apply string_chars_strings. exact Hinv.
  - destruct (load_entries_ok ds s Hinv Hok) as (s' & -> & Hinv' & _). exact Hinv'.
  - rewrite load_entries_strings; [exact Hinv|].
    apply Forall_forall. intros d Hd. apply list_elem_of_fmap_1 in Hd as ([k v] & -> & _).
    eauto.
Qed.

Lemma lib_inv_run (os : list op) (s : Library) :
  lib_inv s -> ops_ok os s -> lib_inv (run os s).
Proof.
  revert s. induction os as [|o os IH]; intros s Hinv Hok; simpl; [exact Hinv|].
  destruct Hok as [Ho Hos]. apply IH; [|exact Hos].
  destruct o; simpl in *.
  - apply lib_inv_add. exact Hinv.
  - apply lib_inv_issue. exact Hinv.
  - apply lib_inv_return. exact Hinv.
  - apply lib_inv_load; assumption.
Qed.

Lemma lib_inv_views (s : Library) : lib_inv s -> views_consistent s.
Proof.
  intros Hinv.
  assert (Hsub : forall (f : Book -> json) (m : gmap string (list loc)),
            (forall k, default [] (m !! k) =
               List.filter (fun l => key_has f k (heap s !! l))
                 (dict_values (books_by_isbn s))) ->
            forall l, in_index m l -> in_primary s l).
  { intros f m Hm l (k & ls & Hk & Hl). unfold in_primary.
    specialize (Hm k). rewrite Hk in Hm. simpl in Hm. subst ls.
    apply list_elem_of_In in Hl. apply filter_In in Hl as [Hl _].
    apply list_elem_of_In. exact Hl. }
  assert (Hsup : forall (f : Book -> json) (m : gmap string (list loc)),
            (forall k, default [] (m !! k) =
               List.filter (fun l => key_has f k (heap s !! l))
                 (dict_values (books_by_isbn s))) ->
            (forall l, in_primary s l -> exists b x, heap s !! l = Some b /\ f b = JStr x) ->
            forall l, in_primary s l -> in_index m l).
  { intros f m Hm Hstr l Hl. destruct (Hstr l Hl) as (b & x & Hb & Hx).
    specialize (Hm (lower x)).
    assert (Hin : l ∈ List.filter (fun l => key_has f (lower x) (heap s !! l))
                    (dict_values (books_by_isbn s))).
    { apply list_elem_of_In, filter_In. split; [apply list_elem_of_In; exact Hl|].
      rewrite Hb. simpl. rewrite Hx. apply bool_decide_true. reflexivity. }
    rewrite <- Hm in Hin. exists (lower x).
    destruct (m !! lower x) as [ls|]; simpl in Hin.
    - exists ls. auto.
    - apply not_elem_of_nil in Hin. contradiction. }
  assert (Hbooks : forall l, in_primary s l ->
            exists b t a, heap s !! l = Some b /\ title b = JStr t /\ author b = JStr a).
  { intros l Hl. unfold in_primary, dict_values in Hl.
    apply list_elem_of_fmap_1 in Hl as ([k l'] & Heq & Hin). simpl in Heq. subst l'.
    destruct (inv_books s Hinv k l Hin) as (b & t & a & Hb & _ & Ht & Ha).
    exists b, t, a. auto. }
  pose proof (Hsub title _ (inv_title s Hinv)) as H1.
  pose proof (Hsub author _ (inv_author s Hinv)) as H2.
  split; [exact H1|]. split; [exact H2|]. split.
  - intros l. split; [|apply H1].
    apply (Hsup title _ (inv_title s Hinv)).
    intros l0 Hl0. destruct (Hbooks l0 Hl0) as (b & t & a & ? & ? & ?). eauto.
  - intros l. split; [|apply H2].
    apply (Hsup author _ (inv_author s Hinv)).
    intros l0 Hl0. destruct (Hbooks l0 Hl0) as (b & t & a & ? & ? & ?). eauto.
Qed.

(** The sample operations only restore a file whose entries all load. *)
Lemma sample_ops_ok : ops_ok sample_ops (empty_lib "library_data.json").
Proof.
  simpl. repeat split; unfold restore_ok; simpl; try exact I.
  - repeat constructor; vm_compute; congruence.
  - apply (bool_decide_unpack _). vm_compute. reflexivity.
  - repeat constructor; apply not_elem_of_nil.
Qed.

(** ** C1: the indexes and the primary mapping reach the same records *)

(** C1 (as stated, refuted): after a [load_data] of a file whose entry has
    a non-string title, the Book is in [books_by_isbn] but in no title
    index list: [load_data] stops at the exception and keeps the partial
    state. *)
Lemma views_consistent_counterexample :
  ~ (forall p os, views_consistent (run os (empty_lib p))).
Proof.
  intros H.
  destruct (H "library_data.json" [OpRestore bad_title_file]) as (_ & _ & H3 & _).
  set (s := run _ _) in H3.
  assert (Hi : books_by_isbn s = [(KStr "1", 0)]) by (vm_compute; reflexivity).
  assert (Ht : books_by_title s = ∅) by (vm_compute; reflexivity).
  destruct (proj1 (H3 0)) as (k & ls & Hk & _).
  - unfold in_primary. rewrite Hi. apply elem_of_cons. left. reflexivity.
  - rewrite Ht, lookup_empty in Hk. discriminate.
Qed.

(** C1 (amended): for every store reached from an empty store by
    [add_book], [issue_book], [return_book] and [load_data] calls whose
    data file, when it holds a list, holds entries that all load (string
    title and author) with ids pairwise distinct and not yet in the store,
    every record of a title or author index is in [books_by_isbn], and the
    three structures reach the same records. *)
Theorem views_consistent_reachable (p : string) (os : list op)
  (Hok : ops_ok os (empty_lib p)) :
  views_consistent (run os (empty_lib p)).
Proof.
  apply lib_inv_views. apply lib_inv_run; [apply lib_inv_empty|exact Hok].
Qed.

Lemma views_consistent_reachable_witness :
  ops_ok sample_ops (empty_lib "library_data.json") /\
  views_consistent (run sample_ops (empty_lib "library_data.json")).
Proof.
  pose proof sample_ops_ok as Hok.
  split; [exact Hok|]. apply (views_consistent_reachable _ _ Hok).
Defined.

(** The duplicate-isbn file: [load_data] overwrites the entry of
    [books_by_isbn] but keeps the first Book in the title index. *)
Example dup_file_views :
  let s := Library_init "library_data.json" dup_file in
  books_by_isbn s = [(KStr "1", 1)] /\
  books_by_title s !! "dune" = Some [0] /\ total_books s = 1.
Proof. vm_compute. auto. Qed.

(** ** C2: [save_data] then a fresh [Library] on the same file *)

(** [Book.from_dict] inverts [Book.to_dict]: the same isbn, title,
    author and holder. *)
Lemma from_dict_to_dict (b : Book) : from_dict (to_dict b) = Some b.
Proof. destruct b. reflexivity. Qed.

Lemma dump_entry_key (s : Library) (k : pykey) (l : loc) :
  lib_inv s -> (k, l) ∈ books_by_isbn s -> entry_key (dump_book s l) = Some k.
Proof.
  intros Hinv Hin. destruct (inv_books s Hinv k l Hin) as (b & t & a & Hb & Hk & Ht & Ha).
  unfold entry_key, dump_book. rewrite Hb, from_dict_to_dict, Ht, Ha. exact Hk.
Qed.

Lemma dump_keys (s : Library) (d : list (pykey * loc)) :
  (forall k l, (k, l) ∈ d -> entry_key (dump_book s l) = Some k) ->
  Forall (fun e => entry_key e <> None) (map (dump_book s) (dict_values d)) /\
  omap entry_key (map (dump_book s) (dict_values d)) = map fst d.
Proof.
  unfold dict_values.
  induction d as [|[k l] d IH]; intros Hd; [split; [constructor|reflexivity]|].
  cbn [map fst snd].
  assert (Hk : entry_key (dump_book s l) = Some k).
  { apply Hd. apply elem_of_cons. left. reflexivity. }
  destruct IH as [IH1 IH2].
  { intros k0 l0 H. apply Hd. apply elem_of_cons. right. exact H. }
  split; [constructor; [congruence|exact IH1]|].
  simpl. rewrite Hk. f_equal. exact IH2.
Qed.

Lemma dump_contents (s : Library) :
  lib_inv s ->
  map from_dict (map (dump_book s) (dict_values (books_by_isbn s))) =
  contents s (dict_values (books_by_isbn s)).
Proof.
  intros Hinv. unfold contents. rewrite map_map. apply map_ext_in.
  intros l Hl. apply list_elem_of_In in Hl. unfold dict_values in Hl.
  apply list_elem_of_fmap_1 in Hl as ([k l'] & Heq & Hin). simpl in Heq. subst l'.
  destruct (inv_books s Hinv k l Hin) as (b & _ & _ & Hb & _).
  unfold dump_book. rewrite Hb. apply from_dict_to_dict.
Qed.

(** Reloading what [save_data] wrote rebuilds the same Books in the same
    primary order, in a store that again satisfies the invariant. *)
Lemma save_reload (fs : fsys) (s : Library) :
  lib_inv s ->
  let s' := Library_init (data_file s) (save_data fs s) in
  lib_inv s' /\
  contents s' (dict_values (books_by_isbn s')) = contents s (dict_values (books_by_isbn s)).
Proof.
  intros Hinv s'.
  destruct (dump_keys s (books_by_isbn s)) as [Hall Hkeys].
  { intros k l Hin. apply dump_entry_key; assumption. }
  assert (Hok : entries_ok (map (dump_book s) (dict_values (books_by_isbn s)))
                  (empty_lib (data_file s))).
  { split; [exact Hall|]. rewrite Hkeys. split; [apply inv_keys; exact Hinv|].
    apply Forall_forall. intros k _. apply not_elem_of_nil. }
  destruct (load_entries_ok _ _ (lib_inv_empty (data_file s)) Hok)
    as (s2 & Hl & Hinv2 & Hc & _).
  assert (Hs' : s' = s2).
  { unfold s', Library_init, load_data, save_data. simpl.
    rewrite lookup_insert_eq. simpl. rewrite Hl. reflexivity. }
  rewrite Hs'. split; [exact Hinv2|]. rewrite Hc. simpl.
  apply dump_contents. exact Hinv.
Qed.

Definition issued_of (ob : option Book) : bool :=
  match ob with Some b => is_issued b | None => false end.

Lemma total_books_contents (s : Library) :
  total_books s = length (contents s (dict_values (books_by_isbn s))).
Proof. unfold total_books, contents, dict_values. rewrite !length_map. reflexivity. Qed.

Lemma issued_count_contents (s : Library) :
  issued_count s = length (List.filter issued_of (contents s (dict_values (books_by_isbn s)))).
Proof.
  unfold issued_count, contents. rewrite <- (filter_contents issued_of).
  rewrite length_map. reflexivity.
Qed.

Lemma search_title_contents (s : Library) (t : string) :
  lib_inv s ->
  contents s (fst (search_by_title t s)) =
  List.filter (key_has title (lower t)) (contents s (dict_values (books_by_isbn s))).
Proof.
  intros Hinv. simpl. rewrite (inv_title s Hinv). unfold contents.
  apply filter_contents.
Qed.

Lemma search_author_contents (s : Library) (a : string) :
  lib_inv s ->
  contents s (fst (search_by_author a s)) =
  List.filter (key_has author (lower a)) (contents s (dict_values (books_by_isbn s))).
Proof.
  intros Hinv. simpl. rewrite (inv_author s Hinv). unfold contents.
  apply filter_contents.
Qed.

(** C2 (as stated, refuted): a store that [load_data] left partial (a
    non-string title, the Book in [books_by_isbn] only) and that then got
    one more Book is saved; the fresh [Library] on that file stops at the
    same entry again and has one Book instead of two. *)
Lemma roundtrip_counterexample :
  ~ (forall p os (fs : fsys),
       let s := run os (empty_lib p) in
       let s' := Library_init (data_file s) (save_data fs s) in
       total_books s' = total_books s /\ issued_count s' = issued_count s /\
       (forall t, contents s' (fst (search_by_title t s')) =
                  contents s (fst (search_by_title t s))) /\
       (forall a, contents s' (fst (search_by_author a s')) =
                  contents s (fst (search_by_author a s)))).
Proof.
  intros H.
  destruct (H "library_data.json"
              [OpRestore bad_title_file; OpAdd "2" "Emma" "Austen"] ∅)
    as [Htot _].
  vm_compute in Htot. discriminate.
Qed.

(** C2 (amended): for every store reached as in C1 (restores only of files
    whose entries all load, with fresh distinct ids), saving it and
    constructing a fresh [Library] on the same file gives the same
    [total_books] and [issued_count], and for every title and author the
    searches return Books with the same fields in the same order (new Book
    objects, equal field by field). *)
Theorem roundtrip_reachable (p : string) (os : list op) (fs : fsys)
  (Hok : ops_ok os (empty_lib p)) :
  let s := run os (empty_lib p) in
  let s' := Library_init (data_file s) (save_data fs s) in
  total_books s' = total_books s /\ issued_count s' = issued_count s /\
  (forall t, contents s' (fst (search_by_title t s')) =
             contents s (fst (search_by_title t s))) /\
  (forall a, contents s' (fst (search_by_author a s')) =
             contents s (fst (search_by_author a s))).
Proof.
  intros s s'.
  assert (Hinv : lib_inv s) by (apply lib_inv_run; [apply lib_inv_empty|exact Hok]).
  destruct (save_reload fs s Hinv) as [Hinv' Hc]. fold s' in Hinv', Hc.
  split; [rewrite !total_books_contents, Hc; reflexivity|].
  split; [rewrite !issued_count_contents, Hc; reflexivity|].
  split.
  - intros t. rewrite !search_title_contents by assumption. rewrite Hc. reflexivity.
  - intros a. rewrite !search_author_contents by assumption. rewrite Hc. reflexivity.
Qed.

Lemma roundtrip_reachable_witness :
  ops_ok sample_ops (empty_lib "library_data.json") /\
  let s := run sample_ops (empty_lib "library_data.json") in
  let s' := Library_init (data_file s) (save_data ∅ s) in
  total_books s' = total_books s /\ issued_count s' = issued_count s /\
  (forall t, contents s' (fst (search_by_title t s')) =
             contents s (fst (search_by_title t s))) /\
  (forall a, contents s' (fst (search_by_author a s')) =
             contents s (fst (search_by_author a s))).
Proof.
  pose proof sample_ops_ok as Hok.
  split; [exact Hok|]. apply (roundtrip_reachable _ _ ∅ Hok).
Defined.

(** * Further properties of the code *)

Example strip_choice :
  strip " 7	" = "7" /\ strip "  Dune  Messiah " = "Dune  Messiah" /\ strip "   " = "".
Proof. vm_compute. auto. Qed.

(** ** [main]: when the data file is written *)

Lemma data_file_load_entries (ds : list json) (s : Library) :
  data_file (outcome_state (load_entries ds s)) = data_file s.
Proof.
  revert s. induction ds as [|d ds IH]; intros s; [reflexivity|]. simpl.
  unfold load_entry.
  destruct (from_dict d) as [b|]; [|reflexivity]. simpl.
  destruct (hash_key (isbn b)); [|reflexivity].
  destruct (py_lower (title b)); [|reflexivity].
  destruct (py_lower (author b)); [|reflexivity].
  rewrite IH. reflexivity.
Qed.

Lemma data_file_run (os : list op) (s : Library) :
  data_file (run os s) = data_file s.
Proof.
  revert s. induction os as [|o os IH]; intros s; [reflexivity|]. simpl.
  rewrite IH. destruct o; simpl.
  - unfold add_book. destruct (dict_get _ _); reflexivity.
  - unfold issue_book. destruct (dict_get _ _) as [l|]; [|reflexivity].
    destruct (heap s !! l) as [b|]; [|reflexivity].
    destruct (issue_to b u); reflexivity.
  - unfold return_book. destruct (dict_get _ _) as [l|]; [|reflexivity].
    destruct (heap s !! l) as [b|]; [|reflexivity].
    destruct (book_return b); reflexivity.
  - unfold load_data. destruct (fs !! data_file s) as [[j|]|]; try reflexivity.
    destruct (py_iter j); [apply data_file_load_entries|reflexivity].
Qed.

(** Every run of the loop ends by option 7, which saves the store it has
    reached, or by the end of input, which leaves the file system as it
    was; the store reached is the effect of a sequence of [add_book],
    [issue_book] and [return_book] calls. *)
Lemma main_loop_shape (f : nat) (inp : list string) (s : Library) (fs : fsys) :
  length inp < f ->
  match main_loop f inp s fs with
  | Exited s' fs' => fs' = save_data fs s' /\ exists os, ops_ok os s /\ s' = run os s
  | EOFCrash s' fs' => fs' = fs /\ exists os, ops_ok os s /\ s' = run os s
  | NoFuel => False
  end.
Proof.
  revert inp s. induction f as [|f IH]; intros inp s Hf; [lia|].
  destruct inp as [|c inp1]; simpl.
  { split; [reflexivity|]. exists []. split; [exact I|reflexivity]. }
  simpl in Hf.
  assert (Hop : forall o inp2, op_ok o s -> length inp2 < f ->
    match main_loop f inp2 (run_op o s) fs with
    | Exited s' fs' => fs' = save_data fs s' /\ exists os, ops_ok os s /\ s' = run os s
    | EOFCrash s' fs' => fs' = fs /\ exists os, ops_ok os s /\ s' = run os s
    | NoFuel => False
    end).
  { intros o inp2 Ho Hl. specialize (IH inp2 (run_op o s) Hl).
    destruct (main_loop f inp2 (run_op o s) fs) as [s' fs'|s' fs'|];
      [| |contradiction].
    - destruct IH as [Hfs (os & Hok & ->)]. split; [exact Hfs|].
      exists (o :: os). split; [split; assumption|reflexivity].
    - destruct IH as [Hfs (os & Hok & ->)]. split; [exact Hfs|].
      exists (o :: os). split; [split; assumption|reflexivity]. }
  assert (Hsame : forall inp2, length inp2 < f ->
    match main_loop f inp2 s fs with
    | Exited s' fs' => fs' = save_data fs s' /\ exists os, ops_ok os s /\ s' = run os s
    | EOFCrash s' fs' => fs' = fs /\ exists os, ops_ok os s /\ s' = run os s
    | NoFuel => False
    end).
  { intros inp2 Hl. apply IH. exact Hl. }
  assert (Hcrash : fs = fs /\ exists os, ops_ok os s /\ s = run os s).
  { split; [reflexivity|]. exists []. split; [exact I|reflexivity]. }
  destruct (String.eqb (strip c) "1").
  { destruct inp1 as [|i [|t [|a inp2]]]; try exact Hcrash.
    apply (Hop (OpAdd (strip i) (strip t) (strip a))); [exact I|simpl in *; lia]. }
  destruct (String.eqb (strip c) "2").
  { destruct inp1 as [|t inp2]; [exact Hcrash|]. apply Hsame. simpl in *; lia. }
  destruct (String.eqb (strip c) "3").
  { destruct inp1 as [|a inp2]; [exact Hcrash|]. apply Hsame. simpl in *; lia. }
  destruct (String.eqb (strip c) "4").
  { destruct inp1 as [|i [|u inp2]]; try exact Hcrash.
    apply (Hop (OpIssue (strip i) (strip u))); [exact I|simpl in *; lia]. }
  destruct (String.eqb (strip c) "5").
  { destruct inp1 as [|i inp2]; [exact Hcrash|].
    apply (Hop (OpReturn (strip i))); [exact I|simpl in *; lia]. }
  destruct (String.eqb (strip c) "6"); [apply Hsame; lia|].
  destruct (String.eqb (strip c) "7"); [|apply Hsame; lia].
  split; [reflexivity|]. exists []. split; [exact I|reflexivity].
Qed.

(** The program writes its data file only on option 7, with the store it
    has at that point; when the input ends first, [input()] raises
    [EOFError] and the file system is left exactly as it was. *)
Theorem main_writes_only_on_exit (inp : list string) (fs : fsys) :
  match main inp fs with
  | Exited s' fs' => fs' = save_data fs s'
  | EOFCrash _ fs' => fs' = fs
  | NoFuel => False
  end.
Proof.
  unfold main. pose proof (main_loop_shape (S (length inp)) inp
    (Library_init "library_data.json" fs) fs ltac:(lia)) as H.
  destruct (main_loop _ _ _ _); [apply H|apply H|exact H].
Qed.

Lemma main_start (fs : fsys) :
  restore_ok fs (empty_lib "library_data.json") ->
  lib_inv (Library_init "library_data.json" fs) /\
  data_file (Library_init "library_data.json" fs) = "library_data.json".
Proof.
  intros Hok. split.
  - apply lib_inv_load; [apply lib_inv_empty|exact Hok].
  - apply (data_file_run [OpRestore fs]).
Qed.

(** Starting from a data file whose entries all load with distinct ids (or
    no file), the store keeps its indexes consistent during the session;
    after option 7, starting the program again on the saved file gives the
    same totals and, for every title and author, Books with the same
    fields in the same order. *)
Theorem main_exit_restart (inp : list string) (fs : fsys)
  (Hok : restore_ok fs (empty_lib "library_data.json")) :
  match main inp fs with
  | Exited s' fs' =>
      views_consistent s' /\
      let s'' := Library_init "library_data.json" fs' in
      total_books s'' = total_books s' /\ issued_count s'' = issued_count s' /\
      (forall t, contents s'' (fst (search_by_title t s'')) =
                 contents s' (fst (search_by_title t s'))) /\
      (forall a, contents s'' (fst (search_by_author a s'')) =
                 contents s' (fst (search_by_author a s')))
  | EOFCrash s' _ => views_consistent s'
  | NoFuel => False
  end.
Proof.
  destruct (main_start fs Hok) as [Hinv0 Hdf0].
  unfold main. pose proof (main_loop_shape (S (length inp)) inp
    (Library_init "library_data.json" fs) fs ltac:(lia)) as H.
  destruct (main_loop _ _ _ _) as [s' fs'|s' fs'|]; [| |exact H];
    destruct H as [Hfs (os & Hos & ->)];
    assert (Hinv : lib_inv (run os (Library_init "library_data.json" fs)))
      by (apply lib_inv_run; assumption).
  - split; [apply lib_inv_views; exact Hinv|].
    destruct (save_reload fs _ Hinv) as [Hinv' Hc].
    rewrite data_file_run, Hdf0 in Hinv', Hc. rewrite Hfs.
    set (s'' := Library_init _ _) in *.
    split; [rewrite !total_books_contents, Hc; reflexivity|].
    split; [rewrite !issued_count_contents, Hc; reflexivity|].
    split.
    + intros t. rewrite !search_title_contents by assumption. rewrite Hc. reflexivity.
    + intros a. rewrite !search_author_contents by assumption. rewrite Hc. reflexivity.
  - apply lib_inv_views. exact Hinv.
Qed.

Lemma main_exit_restart_witness :
  restore_ok good_file (empty_lib "library_data.json") /\
  match main sample_session good_file with
  | Exited s' fs' =>
      views_consistent s' /\
      let s'' := Library_init "library_data.json" fs' in
      total_books s'' = total_books s' /\ issued_count s'' = issued_count s' /\
      (forall t, contents s'' (fst (search_by_title t s'')) =
                 contents s' (fst (search_by_title t s'))) /\
      (forall a, contents s'' (fst (search_by_author a s'')) =
                 contents s' (fst (search_by_author a s')))
  | EOFCrash s' _ => views_consistent s'
  | NoFuel => False
  end.
Proof.
  assert (Hok : restore_ok good_file (empty_lib "library_data.json")).
  { unfold restore_ok. simpl. repeat split.
    - repeat constructor; vm_compute; congruence.
    - apply (bool_decide_unpack _). vm_compute. reflexivity.
    - repeat constructor; apply not_elem_of_nil. }
  split; [exact Hok|]. apply (main_exit_restart _ _ Hok).
Defined.

Example sample_session_runs :
  match main sample_session good_file with
  | Exited s' _ => total_books s' = 3 /\ issued_count s' = 2
  | _ => False
  end.
Proof. vm_compute. auto. Qed.

(** ** Counting issued books *)

(** Each Book appears once among the values of [books_by_isbn]. *)
Lemma values_NoDup (s : Library) : lib_inv s -> NoDup (dict_values (books_by_isbn s)).
Proof.
  intros Hinv.
  assert (Hb := inv_books s Hinv). assert (Hk := inv_keys s Hinv).
  unfold dict_values. revert Hb Hk.
  induction (books_by_isbn s) as [|[k l] d IH]; intros Hb Hk; simpl in *.
  - constructor.
  - inversion Hk as [|? ? Hknot Hk']; subst. constructor.
    + intros Hl. apply list_elem_of_fmap_1 in Hl as ([k' l'] & Heq & Hin).
      simpl in Heq. subst l'.
      destruct (Hb k l ltac:(apply elem_of_cons; left; reflexivity)) as (b & _ & _ & Hl1 & Hh1 & _).
      destruct (Hb k' l ltac:(apply elem_of_cons; right; exact Hin)) as (b' & _ & _ & Hl2 & Hh2 & _).
      rewrite Hl1 in Hl2. injection Hl2 as <-. rewrite Hh1 in Hh2. injection Hh2 as <-.
      apply Hknot. apply (list_elem_of_fmap_2 fst _ (k, l)). exact Hin.
    + apply IH; [|exact Hk'].
      intros k0 l0 Hin. apply Hb. apply elem_of_cons. right. exact Hin.
Qed.

Lemma dict_get_in (d : list (pykey * loc)) (k : pykey) (l : loc) :
  dict_get d k = Some l -> l ∈ dict_values d.
Proof.
  unfold dict_values. induction d as [|[k0 v0] d IH]; simpl; [discriminate|].
  destruct (decide (k0 = k)); intros H.
  - injection H as ->. apply elem_of_cons. left. reflexivity.
  - apply elem_of_cons. right. apply IH. exact H.
Qed.

Definition issued_bit (b : Book) : nat := if is_issued b then 1 else 0.

(** Replacing the Book at a primary reference changes [issued_count] by the
    difference of the two Books' issued status. *)
Lemma issued_count_update (s : Library) (l : loc) (b b' : Book) :
  NoDup (dict_values (books_by_isbn s)) -> l ∈ dict_values (books_by_isbn s) ->
  heap s !! l = Some b ->
  issued_count (set_heap s (<[l := b']> (heap s))) + issued_bit b =
  issued_count s + issued_bit b'.
Proof.
  intros Hnd Hin Hb. unfold issued_count, set_heap. simpl.
  destruct (list_elem_of_split _ _ Hin) as (pre & post & Heq). rewrite Heq in *.
  apply NoDup_app in Hnd as (_ & Hnotpre & Hnd2).
  assert (Hpre : l ∉ pre).
  { intros H. apply (Hnotpre l H). apply elem_of_cons. left. reflexivity. }
  inversion Hnd2 as [|? ? Hpost _]; subst.
  assert (Hout : forall xs, l ∉ xs ->
    List.filter (fun l0 => match <[l := b']> (heap s) !! l0 with
                           | Some b0 => is_issued b0 | None => false end) xs =
    List.filter (fun l0 => match heap s !! l0 with
                           | Some b0 => is_issued b0 | None => false end) xs).
  { intros xs Hxs. apply filter_ext_in. intros l0 Hl0.
    rewrite lookup_insert_ne; [reflexivity|].
    intros ->. apply Hxs. apply list_elem_of_In. exact Hl0. }
  rewrite !List.filter_app, !length_app. rewrite (Hout pre Hpre).
  simpl. rewrite lookup_insert_eq, Hb. rewrite (Hout post Hpost).
  unfold issued_bit. destruct (is_issued b), (is_issued b'); simpl; lia.
Qed.

(** A successful [issue_book] adds one to [issued_count], keeps
    [total_books] and both indexes, and the Book its searches return now
    shows the new holder (the indexes hold references, not copies). *)
Theorem issue_book_success (s : Library) (i u : string)
  (Hinv : lib_inv s) (Hr : fst (issue_book i u s) = true) :
  let s' := snd (issue_book i u s) in
  issued_count s' = S (issued_count s) /\ total_books s' = total_books s /\
  books_by_title s' = books_by_title s /\ books_by_author s' = books_by_author s /\
  exists l b, dict_get (books_by_isbn s) (KStr i) = Some l /\
    heap s' !! l = Some b /\ issued_to b = JStr u.
Proof.
  unfold issue_book in *.
  destruct (dict_get (books_by_isbn s) (KStr i)) as [l|] eqn:Hg; [|discriminate].
  destruct (heap s !! l) as [b|] eqn:Hb; [|discriminate].
  destruct b as [bi bt ba bu]. unfold issue_to in *. simpl in *.
  destruct bu; try discriminate. simpl.
  pose proof (issued_count_update s l (mkBook bi bt ba JNull)
                (mkBook bi bt ba (JStr u)) (values_NoDup s Hinv)
                (dict_get_in _ _ _ Hg) Hb) as Hc.
  unfold issued_bit in Hc. simpl in Hc.
  split; [lia|]. split; [reflexivity|]. split; [reflexivity|]. split; [reflexivity|].
  exists l, (mkBook bi bt ba (JStr u)). split; [reflexivity|].
  split; [apply lookup_insert_eq|reflexivity].
Qed.

Lemma issue_book_success_witness :
  let s := snd (add_book "111" "Dune" "Herbert" (empty_lib "library_data.json")) in
  lib_inv s /\ fst (issue_book "111" "alice" s) = true /\
  let s' := snd (issue_book "111" "alice" s) in
  issued_count s' = S (issued_count s) /\ total_books s' = total_books s /\
  books_by_title s' = books_by_title s /\ books_by_author s' = books_by_author s /\
  exists l b, dict_get (books_by_isbn s) (KStr "111") = Some l /\
    heap s' !! l = Some b /\ issued_to b = JStr "alice".
Proof.
  assert (Hinv : lib_inv (snd (add_book "111" "Dune" "Herbert"
                                 (empty_lib "library_data.json")))).
  { apply lib_inv_add, lib_inv_empty. }
  assert (Hr : fst (issue_book "111" "alice" (snd (add_book "111" "Dune" "Herbert"
                                 (empty_lib "library_data.json")))) = true).
  { vm_compute. reflexivity. }
  split; [exact Hinv|]. split; [exact Hr|].
  apply (issue_book_success _ "111" "alice" Hinv Hr).
Defined.

(** A successful [return_book] takes one from [issued_count] and keeps
    [total_books] and both indexes. *)
Theorem return_book_success (s : Library) (i : string)
  (Hinv : lib_inv s) (Hr : fst (return_book i s) = true) :
  let s' := snd (return_book i s) in
  S (issued_count s') = issued_count s /\ total_books s' = total_books s /\
  books_by_title s' = books_by_title s /\ books_by_author s' = books_by_author s.
Proof.
  unfold return_book in *.
  destruct (dict_get (books_by_isbn s) (KStr i)) as [l|] eqn:Hg; [|discriminate].
  destruct (heap s !! l) as [b|] eqn:Hb; [|discriminate].
  destruct b as [bi bt ba bu]. unfold book_return in *. simpl in *.
  pose proof (issued_count_update s l (mkBook bi bt ba bu)
                (mkBook bi bt ba JNull) (values_NoDup s Hinv)
                (dict_get_in _ _ _ Hg) Hb) as Hc.
  unfold issued_bit in Hc.
  destruct bu; try discriminate; simpl in *;
    (split; [lia|]); repeat split.
Qed.

Lemma return_book_success_witness :
  lib_inv lib_two /\ fst (return_book "111" lib_two) = true /\
  let s' := snd (return_book "111" lib_two) in
  S (issued_count s') = issued_count lib_two /\ total_books s' = total_books lib_two /\
  books_by_title s' = books_by_title lib_two /\
  books_by_author s' = books_by_author lib_two.
Proof.
  assert (Hinv : lib_inv lib_two).
  { apply lib_inv_issue, lib_inv_add, lib_inv_add, lib_inv_empty. }
  assert (Hr : fst (return_book "111" lib_two) = true) by (vm_compute; reflexivity).
  split; [exact Hinv|]. split; [exact Hr|].
  apply (return_book_success _ "111" Hinv Hr).
Defined.

(** ** Lookups that miss, and the report's counts *)



(** [report]'s "Available books" is [total_books() - issued_count()]: the
    issued count never exceeds the total, so the subtraction is exact. *)
Theorem issued_le_total (s : Library) : issued_count s <= total_books s.
Proof.
  unfold issued_count, total_books, dict_values.
  rewrite <- (length_map snd (books_by_isbn s)). apply filter_length_le.
Qed.

(** ** [add_book] *)

(** A successful [add_book i t a] adds one to [total_books], appends the new
    Book to [search_by_title t] and [search_by_author a] (whatever the case
    of the query), and leaves the searches for every other lowercased key
    as they were. *)
Theorem add_book_success (s : Library) (i t a : string)
  (Hr : fst (add_book i t a s) = true) :
  let s' := snd (add_book i t a s) in
  total_books s' = S (total_books s) /\
  (forall q, fst (search_by_title q s') =
     if decide (lower q = lower t)
     then (fst (search_by_title q s) ++ [next_loc s])%list
     else fst (search_by_title q s)) /\
  (forall q, fst (search_by_author q s') =
     if decide (lower q = lower a)
     then (fst (search_by_author q s) ++ [next_loc s])%list
     else fst (search_by_author q s)) /\
  heap s' !! next_loc s = Some (new_Book (JStr i) (JStr t) (JStr a)).
Proof.
  destruct (dict_get (books_by_isbn s) (KStr i)) eqn:Hg.
  { unfold add_book in Hr. rewrite Hg in Hr. discriminate. }
  rewrite (add_book_new i t a s Hg). simpl.
  split; [unfold total_books; simpl; rewrite dict_set_new by exact Hg;
          rewrite length_app; simpl; lia|].
  split; [|split; [|apply lookup_insert_eq]]; intros q; rewrite setdefault_append_lookup;
    [destruct (decide (lower t = lower q)), (decide (lower q = lower t))
    |destruct (decide (lower a = lower q)), (decide (lower q = lower a))];
    congruence.
Qed.

Lemma add_book_success_witness :
  fst (add_book "333" "Dune" "Someone" lib_two) = true /\
  let s' := snd (add_book "333" "Dune" "Someone" lib_two) in
  total_books s' = S (total_books lib_two) /\
  (forall q, fst (search_by_title q s') =
     if decide (lower q = lower "Dune")
     then (fst (search_by_title q lib_two) ++ [next_loc lib_two])%list
     else fst (search_by_title q lib_two)) /\
  (forall q, fst (search_by_author q s') =
     if decide (lower q = lower "Someone")
     then (fst (search_by_author q lib_two) ++ [next_loc lib_two])%list
     else fst (search_by_author q lib_two)) /\
  heap s' !! next_loc lib_two =
    Some (new_Book (JStr "333") (JStr "Dune") (JStr "Someone")).
Proof.
  assert (Hr : fst (add_book "333" "Dune" "Someone" lib_two) = true)
    by (vm_compute; reflexivity).
  split; [exact Hr|]. apply (add_book_success _ _ _ _ Hr).
Defined.

(** ** [load_data] *)

(** A data file that does not parse, or whose JSON value is not a list (a
    number, boolean or null is not iterable; the first key of a dict or
    character of a string is not a dict), leaves the store unchanged. *)
Theorem load_data_not_list (fs : fsys) (s : Library)
  (Hnl : forall j, fs !! data_file s = Some (FJson j) -> forall ds, j <> JArr ds) :
  load_data fs s = s.
Proof.
  unfold load_data. destruct (fs !! data_file s) as [[j|]|]; try reflexivity.
  destruct j as [| | |x|ds|fs']; simpl; try reflexivity.
  - apply load_entries_strings, string_chars_strings.
  - exfalso. apply (Hnl _ eq_refl ds). reflexivity.
  - apply load_entries_strings. apply Forall_forall. intros d Hd.
    apply list_elem_of_fmap_1 in Hd as ([k v] & -> & _). eauto.
Qed.

Lemma load_data_not_list_witness :
  (forall j, (({[ "library_data.json" := FJson (JObj [("isbn", JStr "1")]) ]} : fsys)
                !! data_file lib_two = Some (FJson j)) -> forall ds, j <> JArr ds) /\
  load_data {[ "library_data.json" := FJson (JObj [("isbn", JStr "1")]) ]} lib_two
    = lib_two.
Proof.
  assert (H : forall j, (({[ "library_data.json" := FJson (JObj [("isbn", JStr "1")]) ]}
                : fsys) !! data_file lib_two = Some (FJson j)) -> forall ds, j <> JArr ds).
  { intros j Hj ds ->. vm_compute in Hj. discriminate. }
  split; [exact H|]. apply (load_data_not_list _ _ H).
Defined.

Lemma load_entries_app (ds1 ds2 : list json) (s : Library) :
  load_entries (ds1 ++ ds2) s =
  match load_entries ds1 s with
  | Ok s1 => load_entries ds2 s1
  | Raised s1 => Raised s1
  end.
Proof.
  revert s. induction ds1 as [|d ds1 IH]; intros s; [reflexivity|]. simpl.
  destruct (load_entry d s); [apply IH|reflexivity].
Qed.

(** An entry that is not a dict, or lacks "isbn", "title" or "author",
    ends the loading: the store is as if the file held only the entries
    before it, which stay loaded. *)
Theorem load_data_stops_at_bad_entry (fs : fsys) (s : Library)
  (ds1 ds2 : list json) (d : json)
  (Hf : fs !! data_file s = Some (FJson (JArr (ds1 ++ d :: ds2))))
  (Hd : from_dict d = None) :
  load_data fs s = load_data (<[data_file s := FJson (JArr ds1)]> fs) s.
Proof.
  unfold load_data. rewrite Hf, lookup_insert_eq. simpl.
  rewrite load_entries_app. destruct (load_entries ds1 s) as [s1|s1]; simpl;
    [|reflexivity].
  unfold load_entry. rewrite Hd. reflexivity.
Qed.

Lemma load_data_stops_at_bad_entry_witness :
  partly_bad_file !! data_file (empty_lib "library_data.json") =
    Some (FJson (JArr ([entry (JStr "1") (JStr "Dune") (JStr "Herbert")] ++
                       JObj [("isbn", JStr "2"); ("title", JStr "Emma")] ::
                       [entry (JStr "3") (JStr "1984") (JStr "Orwell")]))) /\
  from_dict (JObj [("isbn", JStr "2"); ("title", JStr "Emma")]) = None /\
  load_data partly_bad_file (empty_lib "library_data.json") =
  load_data (<[data_file (empty_lib "library_data.json") :=
                 FJson (JArr [entry (JStr "1") (JStr "Dune") (JStr "Herbert")])]>
               partly_bad_file) (empty_lib "library_data.json").
Proof.
  assert (Hf : partly_bad_file !! data_file (empty_lib "library_data.json") =
    Some (FJson (JArr ([entry (JStr "1") (JStr "Dune") (JStr "Herbert")] ++
                       JObj [("isbn", JStr "2"); ("title", JStr "Emma")] ::
                       [entry (JStr "3") (JStr "1984") (JStr "Orwell")]))))
    by (vm_compute; reflexivity).
  assert (Hd : from_dict (JObj [("isbn", JStr "2"); ("title", JStr "Emma")]) = None)
    by reflexivity.
  split; [exact Hf|]. split; [exact Hd|].
  apply (load_data_stops_at_bad_entry _ _ _ _ _ Hf Hd).
Defined.

(** [Library(p)] on a file whose entries all load with distinct ids has
    one Book per entry, in file order, each equal to the entry's
    [from_dict]. *)
Theorem init_well_formed_file (p : string) (fs : fsys) (ds : list json)
  (Hf : fs !! p = Some (FJson (JArr ds))) (Hok : entries_ok ds (empty_lib p)) :
  let s := Library_init p fs in
  total_books s = length ds /\
  contents s (dict_values (books_by_isbn s)) = map from_dict ds.
Proof.
  destruct (load_entries_ok ds (empty_lib p) (lib_inv_empty p) Hok)
    as (s' & Hl & _ & Hc & _).
  assert (Hs : Library_init p fs = s').
  { unfold Library_init, load_data. simpl. rewrite Hf. simpl. rewrite Hl. reflexivity. }
  simpl in Hc. rewrite Hs. split; [|exact Hc].
  rewrite total_books_contents, Hc, length_map. reflexivity.
Qed.

Lemma init_well_formed_file_witness :
  good_file !! "library_data.json" =
    Some (FJson (JArr [entry (JStr "111") (JStr "Dune") (JStr "Herbert");
                    JObj [("isbn", JStr "222"); ("title", JStr "1984");
                          ("author", JStr "Orwell"); ("issued_to", JStr "bob")]])) /\
  entries_ok [entry (JStr "111") (JStr "Dune") (JStr "Herbert");
              JObj [("isbn", JStr "222"); ("title", JStr "1984");
                    ("author", JStr "Orwell"); ("issued_to", JStr "bob")]]
             (empty_lib "library_data.json") /\
  let s := Library_init "library_data.json" good_file in
  total_books s = 2 /\
  contents s (dict_values (books_by_isbn s)) =
    map from_dict [entry (JStr "111") (JStr "Dune") (JStr "Herbert");
                   JObj [("isbn", JStr "222"); ("title", JStr "1984");
                         ("author", JStr "Orwell"); ("issued_to", JStr "bob")]].
Proof.
  assert (Hf : good_file !! "library_data.json" =
    Some (FJson (JArr [entry (JStr "111") (JStr "Dune") (JStr "Herbert");
                    JObj [("isbn", JStr "222"); ("title", JStr "1984");
                          ("author", JStr "Orwell"); ("issued_to", JStr "bob")]])))
    by (vm_compute; reflexivity).
  assert (Hok : entries_ok [entry (JStr "111") (JStr "Dune") (JStr "Herbert");
              JObj [("isbn", JStr "222"); ("title", JStr "1984");
                    ("author", JStr "Orwell"); ("issued_to", JStr "bob")]]
             (empty_lib "library_data.json")).
  { repeat split.
    - repeat constructor; vm_compute; congruence.
    - apply (bool_decide_unpack _). vm_compute. reflexivity.
    - repeat constructor; apply not_elem_of_nil. }
  split; [exact Hf|]. split; [exact Hok|].
  apply (init_well_formed_file _ _ _ Hf Hok).
Defined.

Lemma dict_set_length_present (d : list (pykey * loc)) (k : pykey) (l v : loc) :
  dict_get d k = Some l -> length (dict_set d k v) = length d.
Proof.
  induction d as [|[k0 v0] d IH]; simpl; [discriminate|].
  destruct (decide (k0 = k)); intros H; simpl; [reflexivity|]. rewrite IH; auto.
Qed.

(** An entry whose id is already a key of [books_by_isbn] replaces that
    key's Book in place ([total_books] unchanged), while every title and
    author index list keeps all its earlier references, including the
    replaced Book's. *)
Theorem load_entry_repeated_id (s : Library) (d : json) (k : pykey) (l0 : loc)
  (Hk : entry_key d = Some k) (Hin : dict_get (books_by_isbn s) k = Some l0) :
  exists s', load_entry d s = Ok s' /\
    total_books s' = total_books s /\
    dict_get (books_by_isbn s') k = Some (next_loc s) /\
    (forall x, exists ys, default [] (books_by_title s' !! x) =
                          (default [] (books_by_title s !! x) ++ ys)%list) /\
    (forall x, exists ys, default [] (books_by_author s' !! x) =
                          (default [] (books_by_author s !! x) ++ ys)%list).
Proof.
  unfold entry_key in Hk.
  destruct (from_dict d) as [b|] eqn:Hfd; [|discriminate].
  destruct (title b) as [| | |t| |] eqn:Ht; try discriminate.
  destruct (author b) as [| | |a| |] eqn:Ha; try discriminate.
  unfold load_entry. rewrite Hfd. simpl. rewrite Hk. simpl. rewrite Ht, Ha. simpl.
  eexists. split; [reflexivity|].
  split; [unfold total_books; simpl; eapply dict_set_length_present; exact Hin|].
  split; [simpl; rewrite dict_get_set, decide_True; reflexivity|].
  split; intros x; simpl; rewrite setdefault_append_lookup;
    (destruct (decide _); [eexists; reflexivity|exists []; rewrite app_nil_r; reflexivity]).
Qed.

Lemma load_entry_repeated_id_witness :
  let s := Library_init "library_data.json"
             {[ "library_data.json" :=
                  FJson (JArr [entry (JStr "1") (JStr "Dune") (JStr "Herbert")]) ]} in
  entry_key (entry (JStr "1") (JStr "Emma") (JStr "Austen")) = Some (KStr "1") /\
  dict_get (books_by_isbn s) (KStr "1") = Some 0 /\
  exists s', load_entry (entry (JStr "1") (JStr "Emma") (JStr "Austen")) s = Ok s' /\
    total_books s' = total_books s /\
    dict_get (books_by_isbn s') (KStr "1") = Some (next_loc s) /\
    (forall x, exists ys, default [] (books_by_title s' !! x) =
                          (default [] (books_by_title s !! x) ++ ys)%list) /\
    (forall x, exists ys, default [] (books_by_author s' !! x) =
                          (default [] (books_by_author s !! x) ++ ys)%list).
Proof.
  intros s.
  assert (Hk : entry_key (entry (JStr "1") (JStr "Emma") (JStr "Austen")) = Some (KStr "1"))
    by reflexivity.
  assert (Hin : dict_get (books_by_isbn s) (KStr "1") = Some 0)
    by (vm_compute; reflexivity).
  split; [exact Hk|]. split; [exact Hin|].
  apply (load_entry_repeated_id _ _ _ _ Hk Hin).
Defined.
